(** * Foo: the record class generated from class.oml

    A shallow embedding of [oml_output/Foo.py].  The class declares
    [__slots__ = ('_meow', '_hello', '_isTrue')], an [__init__] that fills the
    three slots, a read-only property [meow] and two read/write properties
    [hello] and [isTrue].

    The specification calls the class [Record], the properties [fieldA],
    [fieldB], [fieldC], reading a property [getFieldX()] and assigning to one
    [setFieldX(v)].

    Python resolves [obj.name], [obj.name = v] and [del obj.name] through the
    descriptors found on the class; that lookup is what is modelled here, over
    an instance whose only storage is the slot table. *)

From stdpp Require Import gmap strings list fin_maps.
From Stdlib Require Import ZArith.

Local Open Scope string_scope.

(** ** Values, annotations, exceptions *)

(** Python is dynamically typed: every parameter and every slot holds an
    arbitrary object.  The values that client code passes and stores are, in
    this model, the data values of the three annotated types of the class and
    [None].  The one place where the class looks at the kind of object it is
    given is an assignment to [__class__]; class objects as the right-hand
    side of that assignment are modelled apart, by [class] and [set_class]
    below. *)
Inductive value : Type :=
  | VInt (n : Z)
  | VStr (s : string)
  | VBool (b : bool)
  | VNone.

(** What reading an attribute can return: a stored data value, or an object
    that lives on the class. *)
Inductive object : Type :=
  | Data (v : value)
  | BoundMethod (name : string)
  | Tuple (names : list string)
  | Class (name : string).

(** The annotations written in the source: [int], [str], [bool]. *)
Inductive ann : Type := TInt | TStr | TBool.

(** [isinstance(v, t)].  In Python [bool] is a subclass of [int]. *)
Definition isinstance (v : value) (t : ann) : bool :=
  match t, v with
  | TInt, VInt _ => true
  | TInt, VBool _ => true
  | TStr, VStr _ => true
  | TBool, VBool _ => true
  | _, _ => false
  end.

Inductive exn : Type := AttributeError | TypeError.

Inductive result (A : Type) : Type :=
  | Ok (a : A)
  | Raise (e : exn).
Arguments Ok {A} a.
Arguments Raise {A} e.

(** A raised exception ends the enclosing function body. *)
#[global] Instance result_bind : MBind result := λ A B k r,
  match r with
  | Ok a => k a
  | Raise e => Raise e
  end.

#[global] Instance result_fmap : FMap result := λ A B f r,
  match r with
  | Ok a => Ok (f a)
  | Raise e => Raise e
  end.

(** ** Instances *)

(** An instance of a class with [__slots__] and no [__dict__]: its state is
    the table of the slots that are currently set. *)
Abbreviation instance := (gmap string value).

(** ** Descriptors *)

(** The member descriptor that [__slots__] creates for each slot name. *)
Definition member_get (slot : string) (self : instance) : result value :=
  match self !! slot with
  | Some v => Ok v
  | None => Raise AttributeError
  end.

Definition member_set (slot : string) (self : instance) (v : value)
  : result instance :=
  Ok (<[slot := v]> self).

Definition member_delete (slot : string) (self : instance) : result instance :=
  match self !! slot with
  | Some _ => Ok (delete slot self)
  | None => Raise AttributeError
  end.

Inductive descriptor : Type :=
  | Member (slot : string)
  | Property (fget : instance → result value)
             (fset : option (instance → value → result instance))
  | ClassAttr (o : object)
  | ClassPointer.

(** ** The class body *)

Module Foo.

Definition __slots__ : list string := ["_meow"; "_hello"; "_isTrue"].

(** The names bound to a [property] in the class body. *)
Definition properties : list string := ["meow"; "hello"; "isTrue"].

(** [def meow(self) -> int: return self._meow] *)
Definition meow (self : instance) : result value :=
  member_get "_meow" self.

(** [def hello(self) -> str: return self._hello] *)
Definition hello (self : instance) : result value :=
  member_get "_hello" self.

(** [@hello.setter def hello(self, value: str): self._hello = value] *)
Definition hello_setter (self : instance) (value : value) : result instance :=
  member_set "_hello" self value.

(** [def isTrue(self) -> bool: return self._isTrue] *)
Definition isTrue (self : instance) : result value :=
  member_get "_isTrue" self.

(** [@isTrue.setter def isTrue(self, value: bool): self._isTrue = value] *)
Definition isTrue_setter (self : instance) (value : value) : result instance :=
  member_set "_isTrue" self value.

(** The annotations of the parameters that receive the field values. *)
Definition meow_ann : ann := TInt.
Definition hello_ann : ann := TStr.
Definition isTrue_ann : ann := TBool.

(** The attributes found on the class: what the class body defines, and
    [__class__], which every instance inherits from [object].  The other
    names inherited from [object] ([__doc__], [__repr__], [__eq__], ...) are
    left out of the table: a write to one of them raises [AttributeError] just
    as a write to an undefined name does, whereas a read of one of them
    returns the inherited object in Python and is not covered by this
    table. *)
Definition class_attr (name : string) : option descriptor :=
  if decide (name = "_meow") then Some (Member "_meow")
  else if decide (name = "_hello") then Some (Member "_hello")
  else if decide (name = "_isTrue") then Some (Member "_isTrue")
  else if decide (name = "meow") then Some (Property meow None)
  else if decide (name = "hello") then Some (Property hello (Some hello_setter))
  else if decide (name = "isTrue") then Some (Property isTrue (Some isTrue_setter))
  else if decide (name = "__init__") then Some (ClassAttr (BoundMethod "__init__"))
  else if decide (name = "__slots__") then Some (ClassAttr (Tuple __slots__))
  else if decide (name = "__class__") then Some ClassPointer
  else None.

End Foo.

(** ** Attribute access *)

(** [self.name] *)
Definition getattr (self : instance) (name : string) : result object :=
  match Foo.class_attr name with
  | Some (Member slot) => Data <$> member_get slot self
  | Some (Property fget _) => Data <$> fget self
  | Some (ClassAttr o) => Ok o
  | Some ClassPointer => Ok (Class "Foo")
  | None => Raise AttributeError
  end.

(** [self.name = v] for a data value [v].  Without a [__dict__] only a data
    descriptor of the class can accept the write: a slot stores, a property
    calls its setter and raises [AttributeError] when it has none, [__class__]
    accepts class objects only and raises [TypeError] for a data value; the
    assignment of a class object to [__class__] is [set_class]. *)
Definition setattr (self : instance) (name : string) (v : value)
  : result instance :=
  match Foo.class_attr name with
  | Some (Member slot) => member_set slot self v
  | Some (Property _ (Some fset)) => fset self v
  | Some (Property _ None) => Raise AttributeError
  | Some (ClassAttr _) => Raise AttributeError
  | Some ClassPointer => Raise TypeError
  | None => Raise AttributeError
  end.

(** [del self.name].  None of the properties has a deleter. *)
Definition delattr (self : instance) (name : string) : result instance :=
  match Foo.class_attr name with
  | Some (Member slot) => member_delete slot self
  | Some (Property _ _) => Raise AttributeError
  | Some (ClassAttr _) => Raise AttributeError
  | Some ClassPointer => Raise TypeError
  | None => Raise AttributeError
  end.

(** ** Construction *)

(** [def __init__(self, meow: int, hello: str, isTrue: bool)] *)
Definition __init__ (self : instance) (meow hello isTrue : value)
  : result instance :=
  self ← setattr self "_meow" meow;
  self ← setattr self "_hello" hello;
  setattr self "_isTrue" isTrue.

(** [Foo(meow, hello, isTrue)]: [object.__new__] allocates an instance with
    every slot unset, then [__init__] runs on it. *)
Definition construct (meow hello isTrue : value) : result instance :=
  __init__ ∅ meow hello isTrue.

(** The slot names as a set, to compare with the keys of a slot table. *)
Definition slot_names : gset string := list_to_set Foo.__slots__.

(** ** Client code *)

(** One statement of client code on an instance. *)
Inductive access : Type :=
  | AGet (name : string)
  | ASet (name : string) (v : value)
  | ADel (name : string).

(** Runs one statement and returns the instance afterwards together with the
    outcome.  A statement that raises leaves the instance as it was. *)
Definition exec (a : access) (self : instance) : instance * result object :=
  match a with
  | AGet n => (self, getattr self n)
  | ASet n v =>
      match setattr self n v with
      | Ok self' => (self', Ok (Data VNone))
      | Raise e => (self, Raise e)
      end
  | ADel n =>
      match delattr self n with
      | Ok self' => (self', Ok (Data VNone))
      | Raise e => (self, Raise e)
      end
  end.

(** Runs the statements in order, each one on the instance the previous one
    left, whether or not it raised. *)
Fixpoint exec_all (l : list access) (self : instance) : instance :=
  match l with
  | [] => self
  | a :: l => exec_all l (exec a self).1
  end.

(** The operations the specification exposes, under its names. *)
Inductive call : Type :=
  | getFieldA
  | getFieldB
  | getFieldC
  | setFieldB (v : value)
  | setFieldC (v : value).

Definition access_of (c : call) : access :=
  match c with
  | getFieldA => AGet "meow"
  | getFieldB => AGet "hello"
  | getFieldC => AGet "isTrue"
  | setFieldB v => ASet "hello" v
  | setFieldC v => ASet "isTrue" v
  end.


(** Whether the three constructor arguments conform to their annotations. *)
Definition conforms (meow hello isTrue : value) : bool :=
  isinstance meow Foo.meow_ann && isinstance hello Foo.hello_ann
  && isinstance isTrue Foo.isTrue_ann.

(** ** Class objects and [__class__] *)

(** A class written as a class statement with a [__slots__] tuple and no base
    class, as far as attribute access on its instances looks at it: its name,
    the slot names and the attributes found on it. *)
Record class : Type := Build_class {
  tp_name : string;
  tp_slots : list string;
  tp_attr : string → option descriptor
}.

Definition Foo_type : class :=
  {| tp_name := "Foo"; tp_slots := Foo.__slots__; tp_attr := Foo.class_attr |}.

(** An object together with the class it currently points to. *)
Record pyobject : Type := Build_pyobject {
  ob_type : class;
  ob_slots : gmap string value
}.



(** [self.name] on an object of such a class: the lookup of [getattr], through
    the attributes of the class the object points to. *)
Definition type_getattr (self : pyobject) (name : string) : result object :=
  match tp_attr (ob_type self) name with
  | Some (Member slot) => Data <$> member_get slot (ob_slots self)
  | Some (Property fget _) => Data <$> fget (ob_slots self)
  | Some (ClassAttr o) => Ok o
  | Some ClassPointer => Ok (Class (tp_name (ob_type self)))
  | None => Raise AttributeError
  end.




(** ** Reference functions for sequences of calls *)

(** The value last passed to [setFieldB] in a sequence of calls, or [b] when
    the sequence has none. *)
Fixpoint final_hello (cs : list call) (b : value) : value :=
  match cs with
  | [] => b
  | setFieldB v :: cs => final_hello cs v
  | _ :: cs => final_hello cs b
  end.

(** The value last passed to [setFieldC] in a sequence of calls, or [c] when
    the sequence has none. *)
Fixpoint final_isTrue (cs : list call) (c : value) : value :=
  match cs with
  | [] => c
  | setFieldC v :: cs => final_isTrue cs v
  | _ :: cs => final_isTrue cs c
  end.

(** Whether a statement assigns to or deletes the attribute [name]. *)
Definition writes_to (name : string) (a : access) : bool :=
  match a with
  | AGet _ => false
  | ASet n _ => bool_decide (n = name)
  | ADel n => bool_decide (n = name)
  end.

(** The names through which the class body stores a value: the slots, and the
    two properties that have a setter. *)
Definition assignable : list string :=
  (Foo.__slots__ ++ ["hello"; "isTrue"])%list.

(** The attribute a statement names. *)
Definition access_name (a : access) : string :=
  match a with
  | AGet n => n
  | ASet n _ => n
  | ADel n => n
  end.

(** Whether a call returned rather than raised. *)
Definition is_ok {A : Type} (r : result A) : bool :=
  match r with
  | Ok _ => true
  | Raise _ => false
  end.

(** Membership of a literal name in a literal list of names. *)
Ltac name_in_list :=
  unfold Foo.__slots__, Foo.properties;
  repeat first [apply list_elem_of_here | apply list_elem_of_further].

(** * Properties *)

(** ** Attribute access inside the class body

    The method bodies read and write [self._meow], [self._hello] and
    [self._isTrue]; these accesses resolve to the member descriptors used in
    the definitions of [Module Foo]. *)

Lemma getattr_slot (self : instance) (slot : string) :
  slot ∈ Foo.__slots__ → getattr self slot = Data <$> member_get slot self.
Proof.
  unfold Foo.__slots__. intros Hin.
  repeat (apply elem_of_cons in Hin as [-> | Hin]; [reflexivity |]).
  by apply elem_of_nil in Hin.
Qed.

Lemma setattr_slot (self : instance) (slot : string) (v : value) :
  slot ∈ Foo.__slots__ → setattr self slot v = member_set slot self v.
Proof.
  unfold Foo.__slots__. intros Hin.
  repeat (apply elem_of_cons in Hin as [-> | Hin]; [reflexivity |]).
  by apply elem_of_nil in Hin.
Qed.

Lemma getattr_meow (self : instance) :
  getattr self "meow" = Data <$> member_get "_meow" self.
Proof. reflexivity. Qed.

Lemma getattr_hello (self : instance) :
  getattr self "hello" = Data <$> member_get "_hello" self.
Proof. reflexivity. Qed.

Lemma getattr_isTrue (self : instance) :
  getattr self "isTrue" = Data <$> member_get "_isTrue" self.
Proof. reflexivity. Qed.

Lemma setattr_hello (self : instance) (v : value) :
  setattr self "hello" v = Ok (<["_hello" := v]> self).
Proof. reflexivity. Qed.

Lemma setattr_isTrue (self : instance) (v : value) :
  setattr self "isTrue" v = Ok (<["_isTrue" := v]> self).
Proof. reflexivity. Qed.

Lemma setattr_meow (self : instance) (v : value) :
  setattr self "meow" v = Raise AttributeError.
Proof. reflexivity. Qed.

Lemma member_get_insert_eq (self : instance) (slot : string) (v : value) :
  member_get slot (<[slot := v]> self) = Ok v.
Proof. unfold member_get. by rewrite lookup_insert_eq. Qed.

Lemma member_get_insert_ne (self : instance) (slot slot' : string) (v : value) :
  slot ≠ slot' → member_get slot' (<[slot := v]> self) = member_get slot' self.
Proof. intros Hne. unfold member_get. by rewrite lookup_insert_ne. Qed.

(** ** Construction *)

Lemma construct_eq (a b c : value) :
  construct a b c =
  Ok (<["_isTrue" := c]> (<["_hello" := b]> (<["_meow" := a]> ∅))).
Proof. reflexivity. Qed.

Lemma construct_getters (a b c : value) :
  ∃ r, construct a b c = Ok r
       ∧ getattr r "meow" = Ok (Data a)
       ∧ getattr r "hello" = Ok (Data b)
       ∧ getattr r "isTrue" = Ok (Data c).
Proof.
  eexists. split; [apply construct_eq |].
  rewrite getattr_meow, getattr_hello, getattr_isTrue.
  rewrite member_get_insert_eq.
  rewrite !(member_get_insert_ne _ "_isTrue") by done.
  rewrite member_get_insert_eq.
  rewrite (member_get_insert_ne _ "_hello") by done.
  by rewrite member_get_insert_eq.
Qed.

(** C1. For every integer [a], string [b] and boolean [c], [Foo(a, b, c)]
    returns an instance on which, right after construction, [meow] reads [a],
    [hello] reads [b] and [isTrue] reads [c]. *)
Theorem construct_then_read (a : Z) (b : string) (c : bool) :
  ∃ r, construct (VInt a) (VStr b) (VBool c) = Ok r
       ∧ getattr r "meow" = Ok (Data (VInt a))
       ∧ getattr r "hello" = Ok (Data (VStr b))
       ∧ getattr r "isTrue" = Ok (Data (VBool c)).
Proof. apply construct_getters. Qed.

(** ** The exposed operations leave [_meow] alone *)

Lemma exec_call_meow (c : call) (self : instance) :
  (exec (access_of c) self).1 !! "_meow" = self !! "_meow".
Proof.
  destruct c as [| | | v | v]; cbn [access_of exec]; try reflexivity.
  - rewrite setattr_hello. cbn [fst]. by rewrite lookup_insert_ne.
  - rewrite setattr_isTrue. cbn [fst]. by rewrite lookup_insert_ne.
Qed.

Lemma exec_calls_meow (cs : list call) (self : instance) :
  getattr (exec_all (access_of <$> cs) self) "meow" = getattr self "meow".
Proof.
  revert self. induction cs as [| c cs IH]; intros self; [reflexivity |].
  rewrite fmap_cons. cbn [exec_all]. rewrite IH.
  rewrite !getattr_meow. unfold member_get.
  by rewrite exec_call_meow.
Qed.

(** C2. For every constructed instance and every sequence of the exposed
    operations (reads of the three properties, assignments to [hello] and
    [isTrue]), [meow] afterwards reads the value given for it at
    construction. *)
Theorem meow_fixed_by_calls (a b c : value) (cs : list call) :
  ∃ r, construct a b c = Ok r
       ∧ getattr r "meow" = Ok (Data a)
       ∧ getattr (exec_all (access_of <$> cs) r) "meow" = Ok (Data a).
Proof.
  destruct (construct_getters a b c) as (r & Hr & Ha & _).
  exists r. split_and!; [done | done |].
  by rewrite exec_calls_meow.
Qed.

(** ** Write then read *)

(** C3. For every instance [r] and every string [s], after [r.hello = s] the
    property [hello] reads exactly [s]. *)
Theorem hello_set_then_get (r : instance) (s : string) :
  ∃ r', setattr r "hello" (VStr s) = Ok r'
        ∧ getattr r' "hello" = Ok (Data (VStr s)).
Proof.
  eexists. split; [apply setattr_hello |].
  rewrite getattr_hello. by rewrite member_get_insert_eq.
Qed.

(** C4. For every instance [r] and every boolean [b], after [r.isTrue = b]
    the property [isTrue] reads exactly [b]. *)
Theorem isTrue_set_then_get (r : instance) (b : bool) :
  ∃ r', setattr r "isTrue" (VBool b) = Ok r'
        ∧ getattr r' "isTrue" = Ok (Data (VBool b)).
Proof.
  eexists. split; [apply setattr_isTrue |].
  rewrite getattr_isTrue. by rewrite member_get_insert_eq.
Qed.

(** C5. Each setter touches its own field only: after [r.hello = v] the
    properties [meow] and [isTrue] read what they read before, and after
    [r.isTrue = w] the properties [meow] and [hello] read what they read
    before. *)
Theorem setters_frame (r : instance) (v w : value) :
  (∃ r', setattr r "hello" v = Ok r'
         ∧ getattr r' "meow" = getattr r "meow"
         ∧ getattr r' "isTrue" = getattr r "isTrue")
  ∧ (∃ r', setattr r "isTrue" w = Ok r'
           ∧ getattr r' "meow" = getattr r "meow"
           ∧ getattr r' "hello" = getattr r "hello").
Proof.
  split; eexists.
  - split; [apply setattr_hello |].
    rewrite !getattr_meow, !getattr_isTrue.
    by rewrite !member_get_insert_ne.
  - split; [apply setattr_isTrue |].
    rewrite !getattr_meow, !getattr_hello.
    by rewrite !member_get_insert_ne.
Qed.

(** ** Annotations are not checked *)

(** C6 fails as stated: the constructor accepts text where [meow: int] is
    annotated, raises nothing and returns an instance whose [meow] reads the
    text. *)
Lemma construct_mistyped_accepted :
  isinstance (VStr "text") Foo.meow_ann = false
  ∧ (∀ e, construct (VStr "text") (VStr "hi") (VBool true) ≠ Raise e)
  ∧ ∃ r, construct (VStr "text") (VStr "hi") (VBool true) = Ok r
         ∧ getattr r "meow" = Ok (Data (VStr "text")).
Proof.
  split; [reflexivity |]. split.
  - intros e. by rewrite construct_eq.
  - destruct (construct_getters (VStr "text") (VStr "hi") (VBool true))
      as (r & Hr & Ha & _).
    by exists r.
Qed.

(** C6, as the code has it. Construction with an argument that does not
    conform to its annotation does not fail: no check is made, the instance is
    returned and its properties read the arguments as they were given. *)
Theorem construct_unchecked (a b c : value) :
  conforms a b c = false →
  ∃ r, construct a b c = Ok r
       ∧ getattr r "meow" = Ok (Data a)
       ∧ getattr r "hello" = Ok (Data b)
       ∧ getattr r "isTrue" = Ok (Data c).
Proof. intros _. apply construct_getters. Qed.

Lemma construct_unchecked_witness :
  ∃ r, construct (VStr "text") (VStr "hi") (VBool true) = Ok r
       ∧ getattr r "meow" = Ok (Data (VStr "text"))
       ∧ getattr r "hello" = Ok (Data (VStr "hi"))
       ∧ getattr r "isTrue" = Ok (Data (VBool true)).
Proof. apply (construct_unchecked (VStr "text") (VStr "hi") (VBool true)). reflexivity. Defined.

(** C7 fails as stated: the setters accept an integer for [hello] and text
    for [isTrue], and the properties read the ill-typed values back. *)
Lemma setters_mistyped_accepted :
  isinstance (VInt 5) Foo.hello_ann = false
  ∧ isinstance (VStr "yes") Foo.isTrue_ann = false
  ∧ ∃ r r1 r2, construct (VInt 42) (VStr "hi") (VBool true) = Ok r
      ∧ setattr r "hello" (VInt 5) = Ok r1
      ∧ getattr r1 "hello" = Ok (Data (VInt 5))
      ∧ setattr r "isTrue" (VStr "yes") = Ok r2
      ∧ getattr r2 "isTrue" = Ok (Data (VStr "yes")).
Proof.
  split; [reflexivity |]. split; [reflexivity |].
  do 3 eexists. split; [apply construct_eq |].
  split; [apply setattr_hello |].
  split; [rewrite getattr_hello; by rewrite member_get_insert_eq |].
  split; [apply setattr_isTrue |].
  rewrite getattr_isTrue. by rewrite member_get_insert_eq.
Qed.

(** C7, as the code has it. Assigning a non-string to [hello] or a
    non-boolean to [isTrue] does not fail: the value is stored as given and
    the property reads it back. *)
Theorem setters_unchecked (r : instance) (v w : value) :
  isinstance v Foo.hello_ann = false →
  isinstance w Foo.isTrue_ann = false →
  (∃ r', setattr r "hello" v = Ok r' ∧ getattr r' "hello" = Ok (Data v))
  ∧ (∃ r', setattr r "isTrue" w = Ok r' ∧ getattr r' "isTrue" = Ok (Data w)).
Proof.
  intros _ _. split; eexists.
  - split; [apply setattr_hello |].
    rewrite getattr_hello. by rewrite member_get_insert_eq.
  - split; [apply setattr_isTrue |].
    rewrite getattr_isTrue. by rewrite member_get_insert_eq.
Qed.

Lemma setters_unchecked_witness :
  (∃ r', setattr ∅ "hello" (VInt 5) = Ok r' ∧ getattr r' "hello" = Ok (Data (VInt 5)))
  ∧ (∃ r', setattr ∅ "isTrue" (VStr "yes") = Ok r'
           ∧ getattr r' "isTrue" = Ok (Data (VStr "yes"))).
Proof. apply (setters_unchecked ∅ (VInt 5) (VStr "yes")); reflexivity. Defined.

(** ** Writing [meow] *)

Lemma setattr__meow (self : instance) (v : value) :
  setattr self "_meow" v = Ok (<["_meow" := v]> self).
Proof. reflexivity. Qed.

(** C8 fails as stated: an assignment to the slot [_meow] of a constructed
    instance is a write of the field outside the constructor; it is not
    rejected, and [meow] reads the new value. *)
Lemma meow_written_through_slot :
  ∃ r r', construct (VInt 42) (VStr "hi") (VBool true) = Ok r
          ∧ getattr r "meow" = Ok (Data (VInt 42))
          ∧ exec (ASet "_meow" (VInt 7)) r = (r', Ok (Data VNone))
          ∧ getattr r' "meow" = Ok (Data (VInt 7)).
Proof.
  destruct (construct_getters (VInt 42) (VStr "hi") (VBool true))
    as (r & Hr & Ha & _).
  exists r, (<["_meow" := VInt 7]> r). split_and!; [done | done | |].
  - cbn [exec]. by rewrite setattr__meow.
  - rewrite getattr_meow. by rewrite member_get_insert_eq.
Qed.

(** C8, as the code has it. Every assignment to the property [meow] of an
    existing instance is rejected: it raises [AttributeError], the instance is
    left as it was and [meow] reads what it read before. *)
Theorem meow_property_read_only (r : instance) (v : value) :
  exec (ASet "meow" v) r = (r, Raise AttributeError)
  ∧ getattr (exec (ASet "meow" v) r).1 "meow" = getattr r "meow".
Proof. cbn [exec]. by rewrite setattr_meow. Qed.

(** C10. The property protects the name [meow] only: on a constructed
    instance the assignment [r.meow = v] raises, whereas [r._meow = v] is
    accepted without error and [meow] then reads [v] in place of the
    constructed value. *)
Theorem slot_write_bypasses_property (a b c v : value) :
  ∃ r r', construct a b c = Ok r
          ∧ getattr r "meow" = Ok (Data a)
          ∧ setattr r "meow" v = Raise AttributeError
          ∧ setattr r "_meow" v = Ok r'
          ∧ getattr r' "meow" = Ok (Data v).
Proof.
  destruct (construct_getters a b c) as (r & Hr & Ha & _).
  exists r, (<["_meow" := v]> r). split_and!; try done.
  rewrite getattr_meow. by rewrite member_get_insert_eq.
Qed.

(** ** Names outside the declared field set *)





(** ** The slot table cannot grow *)



Lemma construct_dom (a b c : value) (r : instance) :
  construct a b c = Ok r → dom r = slot_names.
Proof.
  rewrite construct_eq. intros [= <-].
  rewrite !dom_insert_L, dom_empty_L. unfold slot_names. cbn [Foo.__slots__ list_to_set].
  apply set_eq. intros x. rewrite !elem_of_union, !elem_of_singleton. tauto.
Qed.

Lemma type_getattr_Foo (self : instance) (name : string) :
  type_getattr {| ob_type := Foo_type; ob_slots := self |} name
  = getattr self name.
Proof. reflexivity. Qed.





(** ** The scenario of the specification

    [r = Foo(42, "hi", True)]; [r.meow == 42]; [r.hello = "bye"];
    [r.hello == "bye"]; [r.isTrue = False]; [r.isTrue == False];
    [r.meow == 42]. *)
Example scenario :
  ∃ r r1 r2, construct (VInt 42) (VStr "hi") (VBool true) = Ok r
    ∧ getattr r "meow" = Ok (Data (VInt 42))
    ∧ setattr r "hello" (VStr "bye") = Ok r1
    ∧ getattr r1 "hello" = Ok (Data (VStr "bye"))
    ∧ setattr r1 "isTrue" (VBool false) = Ok r2
    ∧ getattr r2 "isTrue" = Ok (Data (VBool false))
    ∧ getattr r2 "meow" = Ok (Data (VInt 42)).
Proof. do 3 eexists. split_and!; reflexivity. Qed.

(** * Further properties of the class *)

(** ** Sequences of exposed calls *)

Lemma exec_calls_table (cs : list call) (a b c : value) :
  exec_all (access_of <$> cs)
    (<["_isTrue" := c]> (<["_hello" := b]> (<["_meow" := a]> ∅)))
  = <["_isTrue" := final_isTrue cs c]>
      (<["_hello" := final_hello cs b]> (<["_meow" := a]> ∅)).
Proof.
  revert b c. induction cs as [| k cs IH]; intros b c; [reflexivity |].
  rewrite fmap_cons. cbn [exec_all].
  destruct k as [| | | v | v]; cbn [access_of exec fst final_hello final_isTrue].
  - apply IH.
  - apply IH.
  - apply IH.
  - rewrite setattr_hello. cbn [fst].
    rewrite (insert_insert_ne _ "_hello" "_isTrue") by done.
    rewrite insert_insert_eq. apply IH.
  - rewrite setattr_isTrue. cbn [fst].
    rewrite insert_insert_eq. apply IH.
Qed.

(** X1. The instance left by a sequence of exposed calls on [Foo(a, b, c)] is
    the one that [Foo] builds from [a], the value last assigned to [hello]
    and the value last assigned to [isTrue] (or [b], [c] when there was no
    assignment): earlier assignments leave no trace. *)
Theorem calls_final_state (a b c : value) (cs : list call) :
  ∃ r, construct a b c = Ok r
       ∧ construct a (final_hello cs b) (final_isTrue cs c)
         = Ok (exec_all (access_of <$> cs) r).
Proof.
  eexists. split; [apply construct_eq |].
  rewrite construct_eq. f_equal. symmetry. apply exec_calls_table.
Qed.

Lemma exec_call_Ok (k : call) (a b c : value) :
  ∃ o, (exec (access_of k)
          (<["_isTrue" := c]> (<["_hello" := b]> (<["_meow" := a]> ∅)))).2
       = Ok o.
Proof.
  destruct (construct_getters a b c) as (r & Hr & Ha & Hb & Hc).
  rewrite construct_eq in Hr. injection Hr as <-.
  destruct k as [| | | v | v]; cbn [access_of exec snd].
  - eauto.
  - eauto.
  - eauto.
  - rewrite setattr_hello. cbn [snd]. eauto.
  - rewrite setattr_isTrue. cbn [snd]. eauto.
Qed.

(** X2. On a constructed instance no exposed call ever raises, whatever
    exposed calls came before it, and the three slots all stay set. *)
Theorem exposed_calls_never_raise (a b c : value) (cs : list call) (k : call) :
  ∃ r, construct a b c = Ok r
       ∧ dom (exec_all (access_of <$> cs) r) = slot_names
       ∧ ∃ o, (exec (access_of k) (exec_all (access_of <$> cs) r)).2 = Ok o.
Proof.
  eexists. split; [apply construct_eq |].
  rewrite exec_calls_table. split.
  - eapply construct_dom. apply construct_eq.
  - apply exec_call_Ok.
Qed.

(** ** How the setters compose *)

(** X3. A second assignment to the same property replaces the first one
    entirely: assigning [v] and then [w] leaves the same instance as
    assigning [w] alone. *)
Theorem setter_last_write_wins (r : instance) (v w : value) :
  (r1 ← setattr r "hello" v; setattr r1 "hello" w) = setattr r "hello" w
  ∧ (r1 ← setattr r "isTrue" v; setattr r1 "isTrue" w) = setattr r "isTrue" w.
Proof.
  rewrite !setattr_hello, !setattr_isTrue. cbn [mbind result_bind].
  rewrite !setattr_hello, !setattr_isTrue.
  by rewrite !insert_insert_eq.
Qed.

(** X4. Assignments to [hello] and to [isTrue] commute: either order leaves
    the same instance. *)
Theorem setters_commute (r : instance) (v w : value) :
  (r1 ← setattr r "hello" v; setattr r1 "isTrue" w)
  = (r1 ← setattr r "isTrue" w; setattr r1 "hello" v).
Proof.
  rewrite setattr_hello, setattr_isTrue. cbn [mbind result_bind].
  rewrite setattr_hello, setattr_isTrue.
  f_equal. by apply insert_insert_ne.
Qed.

(** ** Running [__init__] again *)

Lemma init_eq (self : instance) (a b c : value) :
  __init__ self a b c =
  Ok (<["_isTrue" := c]> (<["_hello" := b]> (<["_meow" := a]> self))).
Proof. reflexivity. Qed.

(** X5. [__init__] does not look at the state it starts from: run on any
    instance of the class, whatever its slots hold or lack, it leaves exactly
    the instance that [Foo(a, b, c)] returns.  In particular a second
    [__init__] replaces [meow] as well. *)
Theorem init_overwrites (self : instance) (a b c : value) :
  dom self ⊆ slot_names →
  __init__ self a b c = construct a b c.
Proof.
  intros Hdom. rewrite construct_eq, init_eq.
  f_equal. apply map_eq. intros i.
  destruct (decide (i = "_isTrue")) as [-> | H1];
    [by rewrite !lookup_insert_eq |].
  rewrite !(lookup_insert_ne _ "_isTrue") by done.
  destruct (decide (i = "_hello")) as [-> | H2];
    [by rewrite !lookup_insert_eq |].
  rewrite !(lookup_insert_ne _ "_hello") by done.
  destruct (decide (i = "_meow")) as [-> | H3];
    [by rewrite !lookup_insert_eq |].
  rewrite !(lookup_insert_ne _ "_meow") by done.
  rewrite lookup_empty. apply not_elem_of_dom. intros Hi.
  apply Hdom in Hi. unfold slot_names, Foo.__slots__ in Hi.
  cbn [list_to_set] in Hi.
  rewrite !elem_of_union, !elem_of_singleton, elem_of_empty in Hi. tauto.
Qed.

Lemma init_overwrites_witness :
  __init__ (<["_meow" := VInt 1]> ∅) (VInt 42) (VStr "hi") (VBool true)
  = construct (VInt 42) (VStr "hi") (VBool true).
Proof.
  apply (init_overwrites (<["_meow" := VInt 1]> ∅)). compute_done.
Defined.

(** ** What can change [meow] *)

Lemma setattr_keeps_meow (self self' : instance) (n : string) (v : value) :
  n ≠ "_meow" → setattr self n v = Ok self' →
  self' !! "_meow" = self !! "_meow".
Proof.
  intros Hne.
  unfold setattr, Foo.class_attr, Foo.hello_setter, Foo.isTrue_setter, member_set.
  case_decide as Hn; [done | clear Hn].
  repeat (case_decide as Hn;
          [clear Hn; first [discriminate
                           | intros [= <-]; by rewrite lookup_insert_ne]
          | clear Hn]).
  discriminate.
Qed.

Lemma delattr_keeps_meow (self self' : instance) (n : string) :
  n ≠ "_meow" → delattr self n = Ok self' →
  self' !! "_meow" = self !! "_meow".
Proof.
  intros Hne. unfold delattr, Foo.class_attr, member_delete.
  case_decide as Hn; [done | clear Hn].
  repeat (case_decide as Hn;
          [clear Hn; first [discriminate
                           | destruct (self !! _);
                             [intros [= <-]; by rewrite lookup_delete_ne
                             | discriminate]]
          | clear Hn]).
  discriminate.
Qed.

Lemma exec_keeps_meow (a : access) (self : instance) :
  writes_to "_meow" a = false →
  (exec a self).1 !! "_meow" = self !! "_meow".
Proof.
  destruct a as [n | n v | n]; cbn [writes_to exec fst]; [done | |];
    intros Hn%bool_decide_eq_false.
  - destruct (setattr self n v) as [self' | e] eqn:E; cbn [fst]; [| done].
    by eapply setattr_keeps_meow.
  - destruct (delattr self n) as [self' | e] eqn:E; cbn [fst]; [| done].
    by eapply delattr_keeps_meow.
Qed.

(** X6. As long as client code assigns data values (so that the class of the
    object is never rebound), the slot name [_meow] is the only way to change
    what [meow] reads: a sequence of reads, assignments of data values and
    deletions in which no assignment or deletion names [_meow] leaves the
    read of [meow] as it was, on every instance of [Foo]. *)
Theorem meow_changes_only_through_slot (l : list access) (r : instance) :
  forallb (λ a, negb (writes_to "_meow" a)) l = true →
  getattr (exec_all l r) "meow" = getattr r "meow".
Proof.
  revert r. induction l as [| a l IH]; intros r Hl; [reflexivity |].
  cbn [forallb] in Hl. apply andb_prop in Hl as [Ha Hl].
  cbn [exec_all]. rewrite IH by done.
  rewrite !getattr_meow. unfold member_get.
  rewrite exec_keeps_meow; [done |]. by apply negb_true_iff.
Qed.

Lemma meow_changes_only_through_slot_witness :
  getattr (exec_all [ASet "meow" (VInt 1); ADel "meow"; ASet "hello" (VInt 2);
                     ADel "_hello"; AGet "_meow"; ASet "color" VNone]
             (<["_meow" := VInt 42]> ∅)) "meow"
  = getattr (<["_meow" := VInt 42]> ∅) "meow".
Proof.
  apply (meow_changes_only_through_slot
           [ASet "meow" (VInt 1); ADel "meow"; ASet "hello" (VInt 2);
            ADel "_hello"; AGet "_meow"; ASet "color" VNone]
           (<["_meow" := VInt 42]> ∅)).
  reflexivity.
Defined.

(** ** Client code that stays on the public names *)

Lemma exec_public_dom (a : access) (self : instance) :
  access_name a ∈ Foo.properties →
  dom self = slot_names → dom (exec a self).1 = slot_names.
Proof.
  unfold Foo.properties. intros Hin Hdom.
  assert (Hslot : ∀ slot v, slot ∈ Foo.__slots__ →
                            dom (<[slot := v]> self) = slot_names).
  { intros slot v Hs. rewrite dom_insert_L, Hdom.
    apply subseteq_union_1_L, singleton_subseteq_l.
    by apply elem_of_list_to_set. }
  destruct a as [n | n v | n]; cbn [access_name] in Hin; [done | |].
  - repeat (apply elem_of_cons in Hin as [-> | Hin]).
    + done.
    + cbn [exec]. rewrite setattr_hello. cbn [fst].
      apply Hslot. name_in_list.
    + cbn [exec]. rewrite setattr_isTrue. cbn [fst].
      apply Hslot. name_in_list.
    + by apply elem_of_nil in Hin.
  - repeat (apply elem_of_cons in Hin as [-> | Hin]); try done.
    by apply elem_of_nil in Hin.
Qed.

Lemma exec_all_public_dom (l : list access) (self : instance) :
  forallb (λ a, bool_decide (access_name a ∈ Foo.properties)) l = true →
  dom self = slot_names → dom (exec_all l self) = slot_names.
Proof.
  revert self. induction l as [| a l IH]; intros self Hl Hdom; [done |].
  cbn [forallb] in Hl. apply andb_prop in Hl as [Ha Hl].
  cbn [exec_all]. apply IH; [done |].
  apply exec_public_dom; [| done]. by apply bool_decide_eq_true in Ha.
Qed.

Lemma read_set_slot (self : instance) (slot : string) :
  dom self = slot_names → slot ∈ Foo.__slots__ →
  ∃ v, member_get slot self = Ok v.
Proof.
  intros Hdom Hs. unfold member_get.
  assert (is_Some (self !! slot)) as [v ->]; [| by eauto].
  apply elem_of_dom. rewrite Hdom. by apply elem_of_list_to_set.
Qed.

(** X7. Client code that names only the public properties cannot unset a
    field: after any sequence of reads, assignments and deletions addressed
    to [meow], [hello] and [isTrue] on a constructed instance, the failed
    statements included, the three slots are still set and all three
    properties still read a value. *)
Theorem public_names_keep_fields_set (a b c : value) (l : list access) :
  forallb (λ x, bool_decide (access_name x ∈ Foo.properties)) l = true →
  ∃ r, construct a b c = Ok r
       ∧ dom (exec_all l r) = slot_names
       ∧ ∃ va vb vc, getattr (exec_all l r) "meow" = Ok (Data va)
                     ∧ getattr (exec_all l r) "hello" = Ok (Data vb)
                     ∧ getattr (exec_all l r) "isTrue" = Ok (Data vc).
Proof.
  intros Hl. destruct (construct_getters a b c) as (r & Hr & _).
  pose proof (construct_dom _ _ _ _ Hr) as Hdom.
  pose proof (exec_all_public_dom l r Hl Hdom) as Hdom'.
  exists r. split_and!; [done | done |].
  destruct (read_set_slot _ "_meow" Hdom') as [va Ha]; [name_in_list |].
  destruct (read_set_slot _ "_hello" Hdom') as [vb Hb]; [name_in_list |].
  destruct (read_set_slot _ "_isTrue" Hdom') as [vc Hc]; [name_in_list |].
  exists va, vb, vc.
  rewrite getattr_meow, getattr_hello, getattr_isTrue.
  by rewrite Ha, Hb, Hc.
Qed.

Lemma public_names_keep_fields_set_witness :
  ∃ r, construct (VInt 42) (VStr "hi") (VBool true) = Ok r
       ∧ dom (exec_all [ADel "hello"; ASet "meow" VNone; ASet "isTrue" VNone] r)
         = slot_names
       ∧ ∃ va vb vc,
           getattr (exec_all [ADel "hello"; ASet "meow" VNone;
                              ASet "isTrue" VNone] r) "meow" = Ok (Data va)
           ∧ getattr (exec_all [ADel "hello"; ASet "meow" VNone;
                                ASet "isTrue" VNone] r) "hello" = Ok (Data vb)
           ∧ getattr (exec_all [ADel "hello"; ASet "meow" VNone;
                                ASet "isTrue" VNone] r) "isTrue" = Ok (Data vc).
Proof.
  apply (public_names_keep_fields_set (VInt 42) (VStr "hi") (VBool true)
           [ADel "hello"; ASet "meow" VNone; ASet "isTrue" VNone]).
  reflexivity.
Defined.

(** ** Unset slots *)

Lemma delattr_slot (self : instance) (slot : string) :
  slot ∈ Foo.__slots__ → delattr self slot = member_delete slot self.
Proof.
  unfold Foo.__slots__. intros Hin.
  repeat (apply elem_of_cons in Hin as [-> | Hin]; [reflexivity |]).
  by apply elem_of_nil in Hin.
Qed.

(** X8. Deleting a slot that is set unsets the field: the deletion succeeds,
    the property stored in that slot then raises [AttributeError] on read, a
    second deletion raises [AttributeError], and an assignment to the slot
    sets the field again. *)
Theorem slot_delete_unsets (r : instance) (p slot : string) (v w : value) :
  (p, slot) ∈ [("meow", "_meow"); ("hello", "_hello"); ("isTrue", "_isTrue")] →
  r !! slot = Some v →
  ∃ r' r'', delattr r slot = Ok r'
            ∧ getattr r' p = Raise AttributeError
            ∧ delattr r' slot = Raise AttributeError
            ∧ setattr r' slot w = Ok r''
            ∧ getattr r'' p = Ok (Data w).
Proof.
  intros Hin Hv. exists (delete slot r), (<[slot := w]> (delete slot r)).
  repeat (apply elem_of_cons in Hin as [[= -> ->] | Hin]).
  4: by apply elem_of_nil in Hin.
  all: rewrite ?getattr_meow, ?getattr_hello, ?getattr_isTrue.
  all: rewrite !delattr_slot, setattr_slot by name_in_list.
  all: unfold member_delete, member_set, member_get.
  all: by rewrite Hv, lookup_delete_eq, lookup_insert_eq.
Qed.

Lemma slot_delete_unsets_witness :
  ∃ r' r'', delattr (<["_hello" := VStr "hi"]> ∅) "_hello" = Ok r'
            ∧ getattr r' "hello" = Raise AttributeError
            ∧ delattr r' "_hello" = Raise AttributeError
            ∧ setattr r' "_hello" (VStr "bye") = Ok r''
            ∧ getattr r'' "hello" = Ok (Data (VStr "bye")).
Proof.
  apply (slot_delete_unsets (<["_hello" := VStr "hi"]> ∅) "hello" "_hello"
           (VStr "hi") (VStr "bye")).
  - compute_done.
  - reflexivity.
Defined.

(** ** The names that accept an assignment *)

(** X9. An assignment [r.name = v] returns exactly when [name] is one of the
    three slots or one of the two properties with a setter; for every other
    name, [meow] included, it raises, on every instance and for every
    value. *)
Theorem assignment_accepted (r : instance) (n : string) (v : value) :
  is_ok (setattr r n v) = bool_decide (n ∈ assignable).
Proof.
  unfold assignable, Foo.__slots__. cbn [app].
  unfold setattr, Foo.class_attr.
  repeat (case_decide as Hn; [subst n; reflexivity | revert Hn]).
  intros. symmetry. apply bool_decide_eq_false. intros Hin.
  repeat (apply elem_of_cons in Hin as [-> | Hin]; [done |]).
  by apply elem_of_nil in Hin.
Qed.
